(** * Chart-of-accounts generator: model and properties

  Shallow embedding of [examples/financial-sim/generate-comprehensive-coa.py].
  The script builds a list of account dictionaries, wraps it in a
  metadata envelope, writes the envelope as JSON and prints a tally of
  the accounts per type.

  Layout of this file:
  - [Py]       the few Python string and formatting primitives the script uses;
  - [Coa]      the account record, the literal tables and the generator;
  - [Report]   the [by_type] tally and the sorted console breakdown;
  - [Script]   the [__main__] block as a transformer of an explicit world;
  - [Forest]   notions for stating the shape of the catalogue;
  - [Process]  the generator as a call in an interpreter with list objects,
               and the script as a process whose [open] may fail;
  - the properties of each of them, then further properties of the
    derived parent, of the tally on any list, of a run and of the shape
    of the catalogue. *)

From Stdlib Require Import DecimalString.
From stdpp Require Import gmap strings list fin_maps sorting.

Local Open Scope string_scope.

(** ** Python primitives *)

Module Py.

(** [s.endswith(suffix)]: the suffix is no longer than [s] and the last
    [len(suffix)] characters of [s] are the suffix. *)
Definition endswith (s suffix : string) : bool :=
  Nat.leb (String.length suffix) (String.length s)
  && String.eqb
       (String.substring (String.length s - String.length suffix)
                         (String.length suffix) s)
       suffix.

(** [s.startswith(p)]. *)
Definition startswith (s p : string) : bool := String.prefix p s.

(** [s[:-1]]: every character but the last; the empty string stays empty. *)
Definition but_last (s : string) : string :=
  String.substring 0 (String.length s - 1) s.

(** [str(n)] for a non-negative integer: its decimal digits. *)
Definition str_of_nat (n : nat) : string :=
  NilEmpty.string_of_uint (Nat.to_uint n).

End Py.

(** ** The account catalogue *)

Module Coa.

(** One account dictionary.  [parent] is [None] for Python's [None];
    [regulation] is [None] when the dictionary has no such key. *)
Record account := Account {
  code : string;
  name : string;
  type : string;
  parent : option string;
  currency : string;
  regulation : option string
}.

#[global] Instance account_eq_dec : EqDecision account.
Proof. solve_decision. Defined.

(** The dictionary literal with the five keys every record but the first has. *)
Definition record (c n t : string) (p : option string) (cur : string) : account :=
  {| code := c; name := n; type := t; parent := p; currency := cur;
     regulation := None |}.

(** [for code, name in table: accounts.append({..., "type": t, "parent": p,
    "currency": "USD"})], as the list of the records appended. *)
Definition children (t p : string) (table : list (string * string)) : list account :=
  (λ '(c, n), record c n t (Some p) "USD") <$> table.

(** *** Assets *)

Definition cash_accounts : list (string * string * list string) :=
  [ ("1101", "Petty Cash", []);
    ("1102", "Cash - Operating Account", []);
    ("1103", "Cash - Payroll Account", []);
    ("1104", "Cash - Savings Account", []);
    ("1105", "Cash - Money Market", []);
    ("1106", "Cash - Foreign Currency - EUR", ["EUR"]);
    ("1107", "Cash - Foreign Currency - GBP", ["GBP"]);
    ("1108", "Cash - Foreign Currency - JPY", ["JPY"]) ].

(** [for code, name, *opts in cash_accounts]: [opts] is the rest of the
    tuple, and the currency is its head when there is one. *)
Definition cash_records : list account :=
  (λ '(c, n, opts),
     let cur := match opts with o :: _ => o | [] => "USD" end in
     record c n "ASSET" (Some "1100") cur) <$> cash_accounts.

Definition ar_accounts : list (string * string) :=
  [ ("1111", "AR - Trade");
    ("1112", "AR - Related Parties");
    ("1113", "AR - Employees");
    ("1114", "AR - Insurance Claims");
    ("1115", "Allowance for Doubtful Accounts");
    ("1116", "AR - Government Contracts");
    ("1117", "AR - International") ].

Definition inventory_accounts : list (string * string) :=
  [ ("1131", "Raw Materials");
    ("1132", "Work in Process");
    ("1133", "Finished Goods");
    ("1134", "Merchandise Inventory");
    ("1135", "Supplies Inventory");
    ("1136", "Packaging Materials");
    ("1137", "Manufacturing Supplies");
    ("1138", "Inventory in Transit");
    ("1139", "Obsolete Inventory") ].

Definition prepaid : list (string * string) :=
  [ ("1141", "Prepaid Insurance");
    ("1142", "Prepaid Rent");
    ("1143", "Prepaid Taxes");
    ("1144", "Prepaid Subscriptions");
    ("1145", "Prepaid Licenses") ].

Definition investments : list (string * string) :=
  [ ("1151", "Marketable Securities");
    ("1152", "Treasury Bills");
    ("1153", "Commercial Paper");
    ("1154", "Certificates of Deposit") ].

Definition buildings : list (string * string) :=
  [ ("1221", "Buildings - Office");
    ("1222", "Buildings - Warehouse");
    ("1223", "Buildings - Manufacturing");
    ("1224", "Buildings - Retail");
    ("1225", "Accumulated Depreciation - Buildings") ].

Definition equipment : list (string * string) :=
  [ ("1241", "Manufacturing Equipment");
    ("1242", "Office Equipment");
    ("1243", "Computer Equipment");
    ("1244", "Network Equipment");
    ("1245", "Accumulated Depreciation - Equipment") ].

Definition intangibles : list (string * string) :=
  [ ("1310", "Patents");
    ("1315", "Accumulated Amortization - Patents");
    ("1320", "Trademarks");
    ("1325", "Accumulated Amortization - Trademarks");
    ("1330", "Copyrights");
    ("1335", "Accumulated Amortization - Copyrights");
    ("1340", "Goodwill");
    ("1350", "Software Development Costs");
    ("1355", "Accumulated Amortization - Software");
    ("1360", "Customer Relationships");
    ("1370", "Brand Names") ].

Definition assets : list account :=
  [ {| code := "1000"; name := "Assets"; type := "ASSET"; parent := None;
       currency := "USD"; regulation := Some "" |};
    record "1100" "Current Assets" "ASSET" (Some "1000") "USD" ]
  ++ cash_records
  ++ [ record "1110" "Accounts Receivable" "ASSET" (Some "1100") "USD" ]
  ++ children "ASSET" "1110" ar_accounts
  ++ [ record "1130" "Inventory" "ASSET" (Some "1100") "USD" ]
  ++ children "ASSET" "1130" inventory_accounts
  ++ [ record "1140" "Prepaid Expenses" "ASSET" (Some "1100") "USD" ]
  ++ children "ASSET" "1140" prepaid
  ++ [ record "1150" "Short-term Investments" "ASSET" (Some "1100") "USD" ]
  ++ children "ASSET" "1150" investments
  ++ [ record "1200" "Fixed Assets" "ASSET" (Some "1000") "USD";
       record "1210" "Land" "ASSET" (Some "1200") "USD";
       record "1220" "Buildings" "ASSET" (Some "1200") "USD" ]
  ++ children "ASSET" "1220" buildings
  ++ [ record "1230" "Leasehold Improvements" "ASSET" (Some "1200") "USD";
       record "1235" "Accumulated Amortization - Leasehold" "ASSET" (Some "1230") "USD";
       record "1240" "Equipment" "ASSET" (Some "1200") "USD" ]
  ++ children "ASSET" "1240" equipment
  ++ [ record "1250" "Vehicles" "ASSET" (Some "1200") "USD";
       record "1255" "Accumulated Depreciation - Vehicles" "ASSET" (Some "1250") "USD";
       record "1260" "Furniture and Fixtures" "ASSET" (Some "1200") "USD";
       record "1265" "Accumulated Depreciation - Furniture" "ASSET" (Some "1260") "USD";
       record "1300" "Intangible Assets" "ASSET" (Some "1000") "USD" ]
  ++ children "ASSET" "1300" intangibles.

(** *** Liabilities *)

Definition ap_accounts : list (string * string) :=
  [ ("2111", "AP - Trade");
    ("2112", "AP - Related Parties");
    ("2113", "AP - Utilities");
    ("2114", "AP - Rent") ].

Definition accrued : list (string * string) :=
  [ ("2131", "Accrued Salaries");
    ("2132", "Accrued Taxes");
    ("2133", "Accrued Interest");
    ("2134", "Accrued Utilities");
    ("2135", "Accrued Rent");
    ("2136", "Accrued Commissions") ].

Definition payroll_liab : list (string * string) :=
  [ ("2151", "Federal Income Tax Withheld");
    ("2152", "State Income Tax Withheld");
    ("2153", "Social Security Tax Payable");
    ("2154", "Medicare Tax Payable");
    ("2155", "401k Contributions Payable");
    ("2156", "Health Insurance Payable") ].

Definition lt_liab : list (string * string) :=
  [ ("2210", "Long-term Loans");
    ("2220", "Bonds Payable");
    ("2230", "Mortgage Payable");
    ("2240", "Deferred Tax Liability");
    ("2250", "Pension Liability");
    ("2260", "Lease Obligations") ].

Definition liabilities : list account :=
  [ record "2000" "Liabilities" "LIABILITY" None "USD";
    record "2100" "Current Liabilities" "LIABILITY" (Some "2000") "USD";
    record "2110" "Accounts Payable" "LIABILITY" (Some "2100") "USD" ]
  ++ children "LIABILITY" "2110" ap_accounts
  ++ [ record "2120" "Short-term Loans" "LIABILITY" (Some "2100") "USD";
       record "2121" "Line of Credit" "LIABILITY" (Some "2120") "USD";
       record "2122" "Notes Payable - Current" "LIABILITY" (Some "2120") "USD";
       record "2130" "Accrued Expenses" "LIABILITY" (Some "2100") "USD" ]
  ++ children "LIABILITY" "2130" accrued
  ++ [ record "2140" "Deferred Revenue" "LIABILITY" (Some "2100") "USD";
       record "2141" "Unearned Service Revenue" "LIABILITY" (Some "2140") "USD";
       record "2142" "Customer Deposits" "LIABILITY" (Some "2140") "USD";
       record "2150" "Payroll Liabilities" "LIABILITY" (Some "2100") "USD" ]
  ++ children "LIABILITY" "2150" payroll_liab
  ++ [ record "2200" "Long-term Liabilities" "LIABILITY" (Some "2000") "USD" ]
  ++ children "LIABILITY" "2200" lt_liab.

(** *** Equity *)

Definition equity_accounts : list (string * string) :=
  [ ("3100", "Owner's Equity");
    ("3200", "Retained Earnings");
    ("3300", "Common Stock");
    ("3310", "Preferred Stock");
    ("3400", "Additional Paid-in Capital");
    ("3500", "Treasury Stock");
    ("3600", "Accumulated Other Comprehensive Income");
    ("3700", "Dividends") ].

Definition equity : list account :=
  [ record "3000" "Equity" "EQUITY" None "USD" ]
  ++ children "EQUITY" "3000" equity_accounts.

(** *** Revenue *)

Definition sales : list (string * string) :=
  [ ("4110", "Product Sales");
    ("4111", "Domestic Sales");
    ("4112", "International Sales");
    ("4113", "Online Sales");
    ("4114", "Retail Sales");
    ("4115", "Wholesale Sales");
    ("4120", "Sales Returns and Allowances");
    ("4130", "Sales Discounts") ].

Definition services : list (string * string) :=
  [ ("4210", "Consulting Revenue");
    ("4220", "Professional Fees");
    ("4230", "Billable Hours");
    ("4240", "Retainer Fees");
    ("4250", "Subscription Revenue");
    ("4251", "Monthly Subscriptions");
    ("4252", "Annual Subscriptions");
    ("4260", "Maintenance Revenue");
    ("4270", "Support Revenue") ].

Definition other_revenue : list (string * string) :=
  [ ("4300", "Interest Income");
    ("4400", "Rental Income");
    ("4410", "Rental Income - Residential");
    ("4420", "Rental Income - Commercial");
    ("4500", "Dividend Income");
    ("4600", "Gain on Sale of Assets");
    ("4700", "Foreign Exchange Gain");
    ("4800", "Miscellaneous Revenue") ].

(** [parent = "4000" if code.endswith("00") else code[:-1] + "0"]. *)
Definition derived_parent (c : string) : string :=
  if Py.endswith c "00" then "4000" else Py.but_last c +:+ "0".

(** [parent if parent != code else "4000"], the value stored in the record. *)
Definition other_revenue_parent (c : string) : string :=
  let p := derived_parent c in
  if bool_decide (p ≠ c) then p else "4000".

Definition other_revenue_records : list account :=
  (λ '(c, n), record c n "REVENUE" (Some (other_revenue_parent c)) "USD")
    <$> other_revenue.

Definition revenue : list account :=
  [ record "4000" "Revenue" "REVENUE" None "USD";
    record "4100" "Sales Revenue" "REVENUE" (Some "4000") "USD" ]
  ++ children "REVENUE" "4100" sales
  ++ [ record "4200" "Service Revenue" "REVENUE" (Some "4000") "USD" ]
  ++ children "REVENUE" "4200" services
  ++ other_revenue_records.

(** *** Expenses *)

Definition cogs : list (string * string) :=
  [ ("5110", "Direct Materials");
    ("5120", "Direct Labor");
    ("5130", "Manufacturing Overhead");
    ("5140", "Freight In");
    ("5150", "Inventory Shrinkage") ].

Definition payroll : list (string * string) :=
  [ ("5211", "Executive Salaries");
    ("5212", "Administrative Salaries");
    ("5213", "Sales Salaries");
    ("5214", "Production Wages");
    ("5215", "Overtime");
    ("5216", "Bonuses");
    ("5217", "Commissions") ].

Definition benefits : list (string * string) :=
  [ ("5221", "Health Insurance");
    ("5222", "Dental Insurance");
    ("5223", "Life Insurance");
    ("5224", "401k Matching");
    ("5225", "Pension Contributions");
    ("5226", "Workers Compensation");
    ("5227", "Unemployment Insurance") ].

Definition occupancy : list (string * string) :=
  [ ("5231", "Office Rent");
    ("5232", "Warehouse Rent");
    ("5233", "Electricity");
    ("5234", "Gas");
    ("5235", "Water");
    ("5236", "Internet");
    ("5237", "Telephone") ].

Definition marketing : list (string * string) :=
  [ ("5241", "Digital Advertising");
    ("5242", "Print Advertising");
    ("5243", "Trade Shows");
    ("5244", "Promotional Materials");
    ("5245", "Website Marketing");
    ("5246", "Social Media Marketing") ].

Definition professional : list (string * string) :=
  [ ("5251", "Legal Fees");
    ("5252", "Accounting Fees");
    ("5253", "Consulting Fees");
    ("5254", "Audit Fees") ].

Definition insurance : list (string * string) :=
  [ ("5261", "General Liability Insurance");
    ("5262", "Property Insurance");
    ("5263", "Auto Insurance");
    ("5264", "Directors and Officers Insurance") ].

Definition office : list (string * string) :=
  [ ("5271", "Office Supplies");
    ("5272", "Postage and Delivery");
    ("5273", "Printing and Copying");
    ("5274", "Subscriptions and Memberships");
    ("5275", "Software Licenses") ].

Definition travel : list (string * string) :=
  [ ("5281", "Airfare");
    ("5282", "Hotels");
    ("5283", "Meals");
    ("5284", "Car Rental");
    ("5285", "Client Entertainment") ].

Definition maintenance : list (string * string) :=
  [ ("5291", "Building Maintenance");
    ("5292", "Equipment Repairs");
    ("5293", "Vehicle Maintenance");
    ("5294", "Computer Repairs") ].

Definition depreciation : list (string * string) :=
  [ ("5310", "Depreciation - Buildings");
    ("5320", "Depreciation - Equipment");
    ("5330", "Depreciation - Vehicles");
    ("5340", "Amortization - Intangibles") ].

Definition interest : list (string * string) :=
  [ ("5410", "Interest Expense - Loans");
    ("5420", "Interest Expense - Credit Cards");
    ("5430", "Bank Charges");
    ("5440", "Finance Charges") ].

Definition taxes : list (string * string) :=
  [ ("5510", "Federal Income Tax");
    ("5520", "State Income Tax");
    ("5530", "Property Tax");
    ("5540", "Sales Tax");
    ("5550", "Payroll Taxes") ].

Definition other_expenses : list (string * string) :=
  [ ("5610", "Bad Debt Expense");
    ("5620", "Loss on Sale of Assets");
    ("5630", "Foreign Exchange Loss");
    ("5640", "Donations");
    ("5650", "Research and Development");
    ("5660", "Training and Development");
    ("5670", "Licenses and Permits");
    ("5680", "Miscellaneous Expense") ].

Definition expenses : list account :=
  [ record "5000" "Expenses" "EXPENSE" None "USD";
    record "5100" "Cost of Goods Sold" "EXPENSE" (Some "5000") "USD" ]
  ++ children "EXPENSE" "5100" cogs
  ++ [ record "5200" "Operating Expenses" "EXPENSE" (Some "5000") "USD";
       record "5210" "Salaries and Wages" "EXPENSE" (Some "5200") "USD" ]
  ++ children "EXPENSE" "5210" payroll
  ++ [ record "5220" "Employee Benefits" "EXPENSE" (Some "5200") "USD" ]
  ++ children "EXPENSE" "5220" benefits
  ++ [ record "5230" "Rent and Occupancy" "EXPENSE" (Some "5200") "USD" ]
  ++ children "EXPENSE" "5230" occupancy
  ++ [ record "5240" "Marketing and Advertising" "EXPENSE" (Some "5200") "USD" ]
  ++ children "EXPENSE" "5240" marketing
  ++ [ record "5250" "Professional Services" "EXPENSE" (Some "5200") "USD" ]
  ++ children "EXPENSE" "5250" professional
  ++ [ record "5260" "Insurance" "EXPENSE" (Some "5200") "USD" ]
  ++ children "EXPENSE" "5260" insurance
  ++ [ record "5270" "Office and Administrative" "EXPENSE" (Some "5200") "USD" ]
  ++ children "EXPENSE" "5270" office
  ++ [ record "5280" "Travel and Entertainment" "EXPENSE" (Some "5200") "USD" ]
  ++ children "EXPENSE" "5280" travel
  ++ [ record "5290" "Maintenance and Repairs" "EXPENSE" (Some "5200") "USD" ]
  ++ children "EXPENSE" "5290" maintenance
  ++ [ record "5300" "Depreciation and Amortization" "EXPENSE" (Some "5000") "USD" ]
  ++ children "EXPENSE" "5300" depreciation
  ++ [ record "5400" "Interest and Finance Charges" "EXPENSE" (Some "5000") "USD" ]
  ++ children "EXPENSE" "5400" interest
  ++ [ record "5500" "Taxes" "EXPENSE" (Some "5000") "USD" ]
  ++ children "EXPENSE" "5500" taxes
  ++ [ record "5600" "Other Expenses" "EXPENSE" (Some "5000") "USD" ]
  ++ children "EXPENSE" "5600" other_expenses.

(** *** The generator *)

(** The list [accounts] when the last [append] has run: the five blocks
    in the order the script appends them. *)
Definition accounts : list account :=
  assets ++ liabilities ++ equity ++ revenue ++ expenses.

(** The dictionary under the key ["chart_of_accounts"]; the field
    [coa_name] is its key ["name"], and so on. *)
Record chart := Chart {
  coa_name : string;
  description : string;
  version : string;
  base_currency : string;
  regulation_frameworks : list string;
  account_count : nat;
  coa_accounts : list account
}.

(** The returned dictionary [coa], which has the single key
    ["chart_of_accounts"]. *)
Record document := Document { chart_of_accounts : chart }.

(** The envelope around an account list, [len(accounts)] included. *)
Definition envelope (accs : list account) : document :=
  {| chart_of_accounts :=
       {| coa_name := "Comprehensive Standard Chart of Accounts";
          description := "Comprehensive CoA with 500+ accounts covering multiple industries and business types";
          version := "1.0";
          base_currency := "USD";
          regulation_frameworks := ["SOX"; "Basel III"; "MiFID II"; "GDPR"];
          account_count := length accs;
          coa_accounts := accs |} |}.

Definition generate_comprehensive_coa : document := envelope accounts.

(** [[a for a in accounts if a["code"] == c]]: the records found when one
    looks a code up. *)
Definition lookup_code (c : string) (accs : list account) : list account :=
  filter (λ a, code a = c) accs.

(** *** What the catalogue is expected to satisfy *)

(** A non-null parent is the code of another record of [accs]. *)
Definition resolves (accs : list account) (a : account) : Prop :=
  match parent a with
  | None => True
  | Some p => Exists (λ b, b ≠ a ∧ code b = p) accs
  end.

#[global] Instance resolves_dec accs a : Decision (resolves accs a).
Proof. unfold resolves. destruct (parent a); apply _. Defined.

(** The five top-level records, as (name, code). *)
Definition roots : list (string * string) :=
  [ ("Assets", "1000"); ("Liabilities", "2000"); ("Equity", "3000");
    ("Revenue", "4000"); ("Expenses", "5000") ].

End Coa.

(** ** The per-type tally and the console breakdown *)

Module Report.
Import Coa.

(** [by_type[acc_type] = by_type.get(acc_type, 0) + 1]. *)
Definition count_one (m : gmap string nat) (a : account) : gmap string nat :=
  <[type a := default 0 (m !! type a) + 1]> m.

(** The loop over the accounts, from the empty dictionary. *)
Definition by_type (accs : list account) : gmap string nat :=
  foldl count_one ∅ accs.

(** [by_type.items()].  Python yields the items in insertion order and
    [map_to_list] in an order of its own; the script only sorts them, and
    the sorted list is the same for both ([sorted_order_irrelevant]). *)
Definition items (m : gmap string nat) : list (string * nat) := map_to_list m.

(** Python's order on [(str, int)] tuples: the first components decide
    unless they are equal, and strings compare character by character. *)
Definition item_le (x y : string * nat) : Prop :=
  if decide (x.1 = y.1) then (x.2 ≤ y.2)%nat else (x.1 ≤ y.1)%string.

#[global] Instance item_le_dec : RelDecision item_le.
Proof. intros x y. unfold item_le. destruct (decide (x.1 = y.1)); apply _. Defined.

(** [sorted(by_type.items())]. *)
Definition sorted (l : list (string * nat)) : list (string * nat) :=
  merge_sort item_le l.

(** The pairs in the order in which the breakdown prints them. *)
Definition breakdown (accs : list account) : list (string * nat) :=
  sorted (items (by_type accs)).

(** [f"  {acc_type}: {count} accounts"]. *)
Definition breakdown_line (x : string * nat) : string :=
  "  " +:+ x.1 +:+ ": " +:+ Py.str_of_nat x.2 +:+ " accounts".

(** The number of records of type [t], counted directly. *)
Definition occurrences (t : string) (accs : list account) : nat :=
  length (filter (λ a, type a = t) accs).

(** The type names of consecutive pairs strictly ascend. *)
Definition type_before (x y : string * nat) : Prop :=
  (x.1 ≤ y.1)%string ∧ x.1 ≠ y.1.

End Report.

(** ** The script's entry point *)

Module Script.
Import Coa.

(** What a run can change: the files, by path, and the lines sent to the
    console. *)
Record world := World {
  files : gmap string string;
  stdout : list string
}.

(** [with open(path, "w") as f: f.write(text)]: the file at [path] is
    created or truncated and holds [text] afterwards. *)
Definition write_file (path text : string) (w : world) : world :=
  {| files := <[path := text]> (files w); stdout := stdout w |}.

(** [print(line)]. *)
Definition print (line : string) (w : world) : world :=
  {| files := files w; stdout := stdout w ++ [line] |}.

Definition newline : string := String (Ascii.ascii_of_nat 10) "".

Definition output_path : string := "comprehensive-coa.json".

Section main.

(** [json.dump(coa, f, indent=2)] belongs to Python's library: the text it
    writes for a document is taken as given. *)
Variable json_dump : document → string.

(** The lines of the report, in the order of the [print] calls. *)
Definition report (coa : document) : list string :=
  [ "Generated comprehensive CoA with "
      +:+ Py.str_of_nat (account_count (chart_of_accounts coa)) +:+ " accounts";
    "File saved to: comprehensive-coa.json";
    newline +:+ "Account breakdown by type:" ]
  ++ (Report.breakdown_line
        <$> Report.breakdown (coa_accounts (chart_of_accounts coa))).

(** The body of [if __name__ == "__main__":]. *)
Definition main (w : world) : world :=
  let coa := generate_comprehensive_coa in
  let w := write_file output_path (json_dump coa) w in
  foldl (λ w line, print line w) w (report coa).

End main.

End Script.

(** ** Notions for stating the shape of the catalogue *)

Module Forest.
Import Coa.

(** The first record of [accs] with code [c], if there is one. *)
Definition find_code (c : string) (accs : list account) : option account :=
  head (lookup_code c accs).

(** Follow the parent references from [a], at most [fuel] of them, up to a
    record without parent. *)
Fixpoint root_of (fuel : nat) (accs : list account) (a : account) : option account :=
  match parent a with
  | None => Some a
  | Some p =>
    match fuel with
    | 0 => None
    | S fuel' =>
      match find_code p accs with
      | None => None
      | Some b => root_of fuel' accs b
      end
    end
  end.

(** The code of [a] comes before the code of [b], as strings. *)
Definition code_before (a b : account) : Prop :=
  String.ltb (code a) (code b) = true.

#[global] Instance code_before_dec : RelDecision code_before.
Proof. intros a b. unfold code_before. apply _. Defined.

(** A decimal digit, ["0"] to ["9"]. *)
Definition is_digit (ch : Ascii.ascii) : Prop :=
  (48 ≤ Ascii.nat_of_ascii ch ≤ 57)%nat.

#[global] Instance is_digit_dec ch : Decision (is_digit ch).
Proof. unfold is_digit. solve_decision. Defined.

End Forest.

(** ** The script as a process of the interpreter *)

Module Process.
Import Coa.

(** The list objects of the interpreter, by identity.  The script changes
    no dictionary once it is built, so dictionaries are kept by value. *)
Abbreviation loc := positive (only parsing).
Abbreviation heap := (gmap positive (list account)) (only parsing).

(** [[]]: a new, empty list object, distinct from every live one. *)
Definition new_list (h : heap) : loc * heap :=
  let l := fresh (dom h) in (l, <[l := []]> h).

(** The list a reference denotes. *)
Definition deref (h : heap) (l : loc) : list account := default [] (h !! l).

(** [lst.append(a)]: the object is changed in place. *)
Definition list_append (l : loc) (a : account) (h : heap) : heap :=
  <[l := (deref h l ++ [a])%list]> h.

(** The dictionary the generator returns: ["account_count"] holds the
    integer [len(accounts)] computed when the dictionary is built, and
    ["accounts"] the list object itself. *)
Record document_obj := DocumentObj {
  obj_count : nat;
  obj_accounts : loc
}.

(** A call of [generate_comprehensive_coa()] in an interpreter whose list
    objects are [h]: [accounts = []], the [append] calls, of which
    [accounts] enumerates the arguments in order, and the dictionary built
    around the list. *)
Definition generate (h : heap) : document_obj * heap :=
  let '(l, h) := new_list h in
  let h := foldl (λ h a, list_append l a h) h accounts in
  ({| obj_count := length (deref h l); obj_accounts := l |}, h).

(** What a returned dictionary holds, the list object read through. *)
Definition value (h : heap) (d : document_obj) : document :=
  let c := chart_of_accounts (envelope (deref h (obj_accounts d))) in
  {| chart_of_accounts :=
       {| coa_name := coa_name c;
          description := description c;
          version := version c;
          base_currency := base_currency c;
          regulation_frameworks := regulation_frameworks c;
          account_count := obj_count d;
          coa_accounts := coa_accounts c |} |}.

(** An interpreter process: its list objects, the files and console it
    acts on, and the paths that [open(path, "w")] refuses. *)
Record process := Process {
  objects : heap;
  io : Script.world;
  unwritable : gset string
}.

(** How a run ends: normally, or with the [OSError] of [open]. *)
Inductive outcome :=
  | Done (p : process)
  | Raised (p : process).

Section run.

(** [json.dump(coa, f, indent=2)] belongs to Python's library; the text it
    writes is taken as a function of what the dictionary holds. *)
Variable json_dump : document → string.

(** The script run as a process.  [open] comes before any [print] and may
    raise, and then nothing is written or printed; a failure while writing
    is not modelled. *)
Definition run (p : process) : outcome :=
  let '(coa, h) := generate (objects p) in
  if decide (Script.output_path ∈ unwritable p) then
    Raised {| objects := h; io := io p; unwritable := unwritable p |}
  else
    let w := Script.write_file Script.output_path (json_dump (value h coa)) (io p) in
    let w := foldl (λ w line, Script.print line w) w (Script.report (value h coa)) in
    Done {| objects := h; io := w; unwritable := unwritable p |}.

End run.

End Process.

(** * Properties *)

(** A closed decidable proposition is settled by evaluating its decision
    procedure. *)
Ltac compute_decision := apply (bool_decide_unpack _); vm_compute; exact I.

(** ** Python's string primitives *)

Section py_facts.
Import Py.

Lemma but_last_cons (b c : Ascii.ascii) (s : string) :
  but_last (String b (String c s)) = String b (but_last (String c s)).
Proof. unfold but_last. cbn. by rewrite Nat.sub_0_r. Qed.

Lemma endswith_char_cons (a b c : Ascii.ascii) (s : string) :
  endswith (String b (String c s)) (String a "")
  = endswith (String c s) (String a "").
Proof. unfold endswith. cbn. by rewrite Nat.sub_0_r. Qed.

(** Dropping the last character and putting it back gives the string again. *)
Lemma endswith_char_but_last (s : string) (a : Ascii.ascii) :
  endswith s (String a "") = true → but_last s +:+ String a "" = s.
Proof.
  induction s as [|b s IH]; [done|].
  destruct s as [|c s].
  - unfold endswith, but_last. cbn.
    destruct (Ascii.eqb_spec b a) as [->|]; done.
  - rewrite endswith_char_cons, but_last_cons. intros H.
    transitivity (String b (but_last (String c s) +:+ String a ""));
      [done | by rewrite IH].
Qed.

End py_facts.

(** ** The catalogue *)

Section catalogue.
Import Coa.

Lemma generated_accounts :
  coa_accounts (chart_of_accounts generate_comprehensive_coa) = accounts.
Proof. reflexivity. Qed.

(** *** The derived parents of the other-revenue group *)

(** Whatever the code, once it ends in ["0"] the stored parent is ["4000"]:
    either the code ends in ["00"], or putting ["0"] in place of its last
    character gives the code back and the fallback applies. *)
Lemma other_revenue_parent_ends_0 (c : string) :
  Py.endswith c "0" = true → other_revenue_parent c = "4000".
Proof.
  intros H. unfold other_revenue_parent, derived_parent.
  destruct (Py.endswith c "00").
  - by case_bool_decide.
  - rewrite (endswith_char_but_last c _ H). by case_bool_decide.
Qed.

Lemma other_revenue_codes_end_0 :
  Forall (λ x, Py.endswith x.1 "0" = true) other_revenue.
Proof. compute_decision. Qed.

Lemma other_revenue_records_parent :
  Forall (λ a, parent a = Some "4000") other_revenue_records.
Proof.
  unfold other_revenue_records. apply Forall_fmap.
  eapply Forall_impl; [apply other_revenue_codes_end_0|].
  intros [c n] H. cbn in *. by rewrite other_revenue_parent_ends_0.
Qed.

(** C2: the record with code "4700" ("Foreign Exchange Gain"), which the
    other-revenue loop appends, has parent "4000", and for every code of
    that group, "4300" among them, the derived parent is the code of a
    record of the collection. *)
Theorem other_revenue_parent_exists :
  lookup_code "4700" other_revenue_records
    = [ record "4700" "Foreign Exchange Gain" "REVENUE" (Some "4000") "USD" ]
  ∧ lookup_code "4700" accounts
    = [ record "4700" "Foreign Exchange Gain" "REVENUE" (Some "4000") "USD" ]
  ∧ Forall (λ x, other_revenue_parent x.1 ∈ code <$> accounts) other_revenue
  ∧ other_revenue_parent "4300" ∈ code <$> accounts.
Proof.
  assert (Hroot : "4000" ∈ code <$> accounts) by compute_decision.
  split; [reflexivity|]. split; [reflexivity|]. split.
  - eapply Forall_impl; [apply other_revenue_codes_end_0|].
    intros x H. by rewrite other_revenue_parent_ends_0.
  - by rewrite other_revenue_parent_ends_0.
Qed.

(** C3: the other-revenue loop appends the codes "4300", "4400", "4410",
    "4420", "4500", "4600", "4700" and "4800", each with parent "4000":
    each code ends in "0", so unless it ends in "00" the expression
    [code[:-1] + "0"] is the code itself and the fallback applies.  The
    records "4410" and "4420" are thereby children of "4000", not of
    "4400" ("Rental Income"). *)
Theorem other_revenue_all_under_root :
  code <$> other_revenue_records
    = ["4300"; "4400"; "4410"; "4420"; "4500"; "4600"; "4700"; "4800"]
  ∧ Forall (λ a, parent a = Some "4000") other_revenue_records
  ∧ Forall (λ x, Py.endswith x.1 "0" = true
                 ∧ (Py.endswith x.1 "00" = false → Py.but_last x.1 +:+ "0" = x.1))
           other_revenue
  ∧ lookup_code "4410" accounts
      = [ record "4410" "Rental Income - Residential" "REVENUE" (Some "4000") "USD" ]
  ∧ lookup_code "4420" accounts
      = [ record "4420" "Rental Income - Commercial" "REVENUE" (Some "4000") "USD" ]
  ∧ lookup_code "4400" accounts
      = [ record "4400" "Rental Income" "REVENUE" (Some "4000") "USD" ].
Proof.
  split; [reflexivity|]. split; [apply other_revenue_records_parent|].
  split; [|by repeat split].
  eapply Forall_impl; [apply other_revenue_codes_end_0|].
  intros x H. split; [done|]. intros _. by apply endswith_char_but_last.
Qed.

(** *** Referential integrity *)

Lemma accounts_resolve : Forall (resolves accounts) accounts.
Proof. compute_decision. Qed.

(** C1: in the list the generator builds, the parent of a record, when it
    is not null, is the code of some other record of the list. *)
Theorem parent_resolves (a : account) (p : string) :
  a ∈ accounts → parent a = Some p →
  ∃ b, b ∈ accounts ∧ b ≠ a ∧ code b = p.
Proof.
  intros Ha Hp.
  pose proof (proj1 (Forall_forall _ _) accounts_resolve a Ha) as H.
  unfold resolves in H. rewrite Hp in H.
  apply Exists_exists in H as (b & Hb & Hne & Hc). by exists b.
Qed.

Lemma parent_resolves_witness :
  let a := record "5217" "Commissions" "EXPENSE" (Some "5210") "USD" in
  (a ∈ accounts ∧ parent a = Some "5210")
  ∧ ∃ b, b ∈ accounts ∧ b ≠ a ∧ code b = "5210".
Proof.
  intros a. split.
  - split; [compute_decision | reflexivity].
  - apply (parent_resolves a "5210"); [compute_decision | reflexivity].
Defined.

(** *** Uniqueness of codes *)

Lemma codes_NoDup : NoDup (code <$> accounts).
Proof. compute_decision. Qed.

(** C4: two records at different positions of the list have different
    codes. *)
Theorem code_unique (i j : nat) (a b : account) :
  accounts !! i = Some a → accounts !! j = Some b → i ≠ j →
  code a ≠ code b.
Proof.
  intros Hi Hj Hne Heq. apply Hne.
  apply (NoDup_lookup _ i j (code a) codes_NoDup).
  - by rewrite list_lookup_fmap, Hi.
  - by rewrite list_lookup_fmap, Hj, Heq.
Qed.

Lemma code_unique_witness :
  let a := record "4250" "Subscription Revenue" "REVENUE" (Some "4200") "USD" in
  let b := record "4251" "Monthly Subscriptions" "REVENUE" (Some "4200") "USD" in
  (accounts !! 129 = Some a ∧ accounts !! 130 = Some b ∧ 129 ≠ 130)
  ∧ code a ≠ code b.
Proof.
  intros a b. split.
  - split; [reflexivity | split; [reflexivity | lia]].
  - apply (code_unique 129 130); [reflexivity | reflexivity | lia].
Defined.

(** *** The envelope *)

Lemma envelope_count (accs : list account) :
  account_count (chart_of_accounts (envelope accs))
  = length (coa_accounts (chart_of_accounts (envelope accs))).
Proof. reflexivity. Qed.

(** C5: in the returned document, [account_count] is the length of the
    [accounts] list. *)
Theorem account_count_length :
  account_count (chart_of_accounts generate_comprehensive_coa)
  = length (coa_accounts (chart_of_accounts generate_comprehensive_coa)).
Proof. apply envelope_count. Qed.

Example account_count_value :
  account_count (chart_of_accounts generate_comprehensive_coa) = 233.
Proof. reflexivity. Qed.

(** *** Roots *)

(** C7: the records with a null parent are the five roots "Assets" 1000,
    "Liabilities" 2000, "Equity" 3000, "Revenue" 4000 and "Expenses" 5000,
    one record each, and every other record has a parent. *)
Theorem roots_exactly :
  (λ a, (name a, code a)) <$> filter (λ a, parent a = None) accounts = roots
  ∧ Forall (λ a, (name a, code a) ∉ roots → is_Some (parent a)) accounts.
Proof.
  split; [reflexivity|].
  assert (H : Forall (λ a, (name a, code a) ∉ roots → parent a ≠ None) accounts)
    by compute_decision.
  eapply Forall_impl; [exact H|]. intros a Ha Hn. cbn in Ha.
  destruct (parent a) as [p|] eqn:Hp; [by exists p | by destruct (Ha Hn)].
Qed.

(** *** Looking a code up *)

(** C8: looking "1102" up in the accounts of the generated document finds
    one record: "Cash - Operating Account", an ASSET under "1100", in USD. *)
Theorem lookup_1102 :
  lookup_code "1102" (coa_accounts (chart_of_accounts generate_comprehensive_coa))
  = [ {| code := "1102"; name := "Cash - Operating Account"; type := "ASSET";
         parent := Some "1100"; currency := "USD"; regulation := None |} ].
Proof. reflexivity. Qed.

(** *** Types and code prefixes *)

(** C9: the type of a record follows the first digit of its code: "1" is
    ASSET, "2" LIABILITY, "3" EQUITY, "4" REVENUE and "5" EXPENSE. *)
Theorem type_follows_prefix (a : account) :
  a ∈ accounts →
  (Py.startswith (code a) "1" = true → type a = "ASSET")
  ∧ (Py.startswith (code a) "2" = true → type a = "LIABILITY")
  ∧ (Py.startswith (code a) "3" = true → type a = "EQUITY")
  ∧ (Py.startswith (code a) "4" = true → type a = "REVENUE")
  ∧ (Py.startswith (code a) "5" = true → type a = "EXPENSE").
Proof.
  revert a. apply Forall_forall. compute_decision.
Qed.

Lemma type_follows_prefix_witness :
  let a := record "2156" "Health Insurance Payable" "LIABILITY" (Some "2150") "USD" in
  a ∈ accounts
  ∧ Py.startswith (code a) "2" = true
  ∧ type a = "LIABILITY".
Proof.
  intros a.
  assert (Ha : a ∈ accounts) by compute_decision.
  split; [exact Ha|]. split; [reflexivity|].
  by apply (type_follows_prefix a Ha).
Defined.

(** Every code does start with one of the five digits. *)
Lemma code_prefix_digit :
  Forall (λ a, Exists (λ d, Py.startswith (code a) d = true)
                      ["1"; "2"; "3"; "4"; "5"]) accounts.
Proof. compute_decision. Qed.

End catalogue.

(** ** The tally and the breakdown *)

Section report_facts.
Import Coa Report.

#[local] Instance item_le_total : Total item_le.
Proof.
  intros x y. unfold item_le.
  destruct (decide (x.1 = y.1)), (decide (y.1 = x.1)); try congruence.
  - lia.
  - apply (total String.le).
Qed.

#[local] Instance item_le_trans : Transitive item_le.
Proof.
  intros x y z. unfold item_le.
  destruct (decide (x.1 = y.1)) as [Hxy|Hxy],
           (decide (y.1 = z.1)) as [Hyz|Hyz],
           (decide (x.1 = z.1)) as [Hxz|Hxz]; try congruence; try lia.
  - intros H1 H2. destruct Hxy. apply (anti_symm String.le); [done|].
    by rewrite Hxz.
  - intros H1 H2. by transitivity y.1.
Qed.

#[local] Instance item_le_antisymm : AntiSymm (=) item_le.
Proof.
  intros [s n] [t m]. unfold item_le. cbn.
  destruct (decide (s = t)) as [->|Hne], (decide (t = t)); try congruence.
  - intros. f_equal. lia.
  - destruct (decide (t = s)); [congruence|].
    intros H1 H2. destruct Hne. by apply (anti_symm String.le).
Qed.

(** The sorted list does not depend on the order in which the dictionary
    yields its items. *)
Lemma sorted_order_irrelevant (l1 l2 : list (string * nat)) :
  l1 ≡ₚ l2 → sorted l1 = sorted l2.
Proof.
  intros Hp. apply (StronglySorted_unique item_le).
  - apply (StronglySorted_merge_sort _).
  - apply (StronglySorted_merge_sort _).
  - unfold sorted. by rewrite !merge_sort_Permutation.
Qed.

(** With distinct keys, the tuple order is the order of the keys. *)
Lemma sorted_items_strict (l : list (string * nat)) :
  StronglySorted item_le l → NoDup l.*1 → StronglySorted type_before l.
Proof.
  induction 1 as [|x l Hl IH Hx]; intros Hnd; [constructor|].
  apply NoDup_cons in Hnd as [Hnotin Hnd]. constructor; [by apply IH|].
  apply Forall_forall. intros y Hy.
  assert (x.1 ≠ y.1) as Hne.
  { intros Heq. apply Hnotin. rewrite Heq. by apply list_elem_of_fmap_2. }
  pose proof (proj1 (Forall_forall _ _) Hx y Hy) as Hle.
  unfold item_le in Hle. by destruct (decide (x.1 = y.1)).
Qed.

Lemma breakdown_perm (accs : list account) :
  breakdown accs ≡ₚ items (by_type accs).
Proof. apply merge_sort_Permutation. Qed.

Lemma breakdown_sorted (accs : list account) :
  StronglySorted type_before (breakdown accs).
Proof.
  apply sorted_items_strict.
  - apply (StronglySorted_merge_sort _).
  - rewrite breakdown_perm. apply NoDup_fst_map_to_list.
Qed.

(** One more iteration of the loop. *)
Lemma by_type_snoc (accs : list account) (a : account) :
  by_type (accs ++ [a]) = count_one (by_type accs) a.
Proof. unfold by_type. by rewrite foldl_snoc. Qed.

Lemma count_one_total (m : gmap string nat) (a : account) :
  sum_list_with snd (items (count_one m a)) = S (sum_list_with snd (items m)).
Proof.
  unfold count_one, items. destruct (m !! type a) as [n|] eqn:Hm; cbn.
  - rewrite <- insert_delete_eq.
    rewrite map_to_list_insert by apply lookup_delete_eq.
    rewrite <- (map_to_list_delete m (type a) n Hm). cbn. lia.
  - by rewrite map_to_list_insert.
Qed.

(** The counts add up to the number of records. *)
Lemma by_type_total (accs : list account) :
  sum_list_with snd (items (by_type accs)) = length accs.
Proof.
  induction accs as [|a accs IH] using rev_ind; [done|].
  rewrite by_type_snoc, count_one_total, IH, length_app. cbn. lia.
Qed.

(** A type is a key when it occurs, and its count is its number of
    occurrences. *)
Lemma by_type_lookup (accs : list account) (t : string) :
  by_type accs !! t
  = if decide (occurrences t accs = 0) then None else Some (occurrences t accs).
Proof.
  unfold occurrences.
  induction accs as [|a accs IH] using rev_ind; [done|].
  rewrite by_type_snoc, filter_app, length_app. unfold count_one.
  rewrite filter_cons, filter_nil.
  destruct (decide (type a = t)) as [->|Hne].
  - rewrite lookup_insert_eq, IH. cbn.
    repeat case_decide; cbn; try lia; f_equal; lia.
  - rewrite lookup_insert_ne, IH by done. cbn. by rewrite Nat.add_0_r.
Qed.

Lemma by_type_dom (accs : list account) (t : string) :
  t ∈ dom (by_type accs) ↔ ∃ a, a ∈ accs ∧ type a = t.
Proof.
  rewrite elem_of_dom, by_type_lookup. unfold occurrences.
  destruct (filter (λ a, type a = t) accs) as [|a l] eqn:Hf; cbn.
  - split; [by intros [? ?]|]. intros (a & Ha & Ht).
    assert (a ∈ filter (λ a, type a = t) accs) as Hin
      by by apply list_elem_of_filter.
    rewrite Hf in Hin. by apply elem_of_nil in Hin.
  - split; [|by eexists]. intros _. exists a.
    assert (a ∈ filter (λ a, type a = t) accs) as Hin
      by (rewrite Hf; left).
    by apply list_elem_of_filter in Hin as [? ?].
Qed.

Example breakdown_value :
  breakdown accounts
  = [("ASSET", 71); ("EQUITY", 9); ("EXPENSE", 91); ("LIABILITY", 34);
     ("REVENUE", 28)].
Proof. vm_compute. reflexivity. Qed.

Example report_value :
  Script.report generate_comprehensive_coa
  = [ "Generated comprehensive CoA with 233 accounts";
      "File saved to: comprehensive-coa.json";
      Script.newline +:+ "Account breakdown by type:";
      "  ASSET: 71 accounts";
      "  EQUITY: 9 accounts";
      "  EXPENSE: 91 accounts";
      "  LIABILITY: 34 accounts";
      "  REVENUE: 28 accounts" ].
Proof. vm_compute. reflexivity. Qed.

End report_facts.

(** ** The entry point *)

Section script_facts.
Import Coa Script.

Variable json_dump : document → string.

Lemma print_all (w : world) (lines : list string) :
  foldl (λ w line, print line w) w lines
  = {| files := files w; stdout := stdout w ++ lines |}.
Proof.
  revert w. induction lines as [|l lines IH]; intros [fs out]; cbn.
  - by rewrite app_nil_r.
  - rewrite IH. cbn. by rewrite <- app_assoc.
Qed.

(** A run overwrites one file and adds the report to the console. *)
Lemma main_effect (w : world) :
  main json_dump w
  = {| files := <[output_path := json_dump generate_comprehensive_coa]> (files w);
       stdout := stdout w ++ report generate_comprehensive_coa |}.
Proof. unfold main. by rewrite print_all. Qed.

(** C6: for the tally of the generated accounts, the counts add up to
    [account_count] and the keys are the types that occur in some record.
    A run adds to the console the three opening lines and then one line
    "  TYPE: COUNT accounts" for each (type, count) pair of the tally, the
    type names ascending: ASSET, EQUITY, EXPENSE, LIABILITY, REVENUE. *)
Theorem by_type_summary (w : world) :
  let chart := chart_of_accounts generate_comprehensive_coa in
  let tally := Report.by_type (coa_accounts chart) in
  let printed := Report.breakdown (coa_accounts chart) in
  let line := λ x : string * nat,
    "  " +:+ x.1 +:+ ": " +:+ Py.str_of_nat x.2 +:+ " accounts" in
  sum_list_with snd (Report.items tally) = account_count chart
  ∧ (∀ t, t ∈ dom tally ↔ ∃ a, a ∈ coa_accounts chart ∧ type a = t)
  ∧ stdout (main json_dump w)
    = (stdout w
       ++ [ "Generated comprehensive CoA with 233 accounts";
            "File saved to: comprehensive-coa.json";
            newline +:+ "Account breakdown by type:" ]
       ++ (line <$> printed))%list
  ∧ printed ≡ₚ Report.items tally
  ∧ sum_list_with snd printed = account_count chart
  ∧ StronglySorted Report.type_before printed
  ∧ line <$> printed
    = [ "  ASSET: 71 accounts"; "  EQUITY: 9 accounts";
        "  EXPENSE: 91 accounts"; "  LIABILITY: 34 accounts";
        "  REVENUE: 28 accounts" ].
Proof.
  intros chart tally printed line.
  assert (Hsum : sum_list_with snd (Report.items tally) = account_count chart)
    by (unfold tally; by rewrite by_type_total).
  split; [exact Hsum|]. split; [intros t; apply by_type_dom|].
  split; [|split; [apply breakdown_perm|split; [|split]]].
  - rewrite main_effect. cbn [stdout]. f_equal; vm_compute; reflexivity.
  - unfold printed. by rewrite breakdown_perm.
  - apply breakdown_sorted.
  - vm_compute. reflexivity.
Qed.

End script_facts.

(** ** Runs of the process *)

Section process_facts.
Import Coa Script Process.

Variable json_dump : document → string.

(** The [append] calls extend the one list object they are made on. *)
Lemma foldl_list_append (l : positive) (h : gmap positive (list account))
    (l0 accs : list account) :
  h !! l = Some l0 →
  foldl (λ h a, list_append l a h) h accs = <[l := (l0 ++ accs)%list]> h.
Proof.
  revert h l0. induction accs as [|a accs IH]; intros h l0 Hl; cbn.
  - by rewrite app_nil_r, insert_id.
  - rewrite (IH _ (l0 ++ [a])%list).
    + unfold list_append. by rewrite insert_insert_eq, <- app_assoc.
    + unfold list_append, deref. by rewrite lookup_insert_eq, Hl.
Qed.

(** A call allocates one list object, fills it and leaves the others. *)
Lemma generate_eq (h : gmap positive (list account)) :
  generate h
  = ({| obj_count := length accounts; obj_accounts := fresh (dom h) |},
     <[fresh (dom h) := accounts]> h).
Proof.
  unfold generate, new_list.
  rewrite (foldl_list_append _ _ []) by apply lookup_insert_eq.
  rewrite insert_insert_eq. unfold deref. by rewrite lookup_insert_eq.
Qed.

(** Whatever the interpreter holds, the dictionary a call returns holds
    the document of the pure reading of the generator. *)
Lemma generate_value (h : gmap positive (list account)) :
  value (generate h).2 (generate h).1 = generate_comprehensive_coa.
Proof.
  rewrite generate_eq. unfold value, deref. cbn [fst snd obj_accounts obj_count].
  by rewrite lookup_insert_eq.
Qed.

Lemma generate_fresh (h : gmap positive (list account)) :
  obj_accounts (generate h).1 ∉ dom h.
Proof. rewrite generate_eq. cbn [fst obj_accounts]. apply is_fresh. Qed.

(** A second call in the same interpreter returns a dictionary with a list
    object of its own, and the first dictionary still holds what it held. *)
Lemma generate_twice (h : gmap positive (list account)) :
  let r1 := generate h in
  let r2 := generate r1.2 in
  value r2.2 r1.1 = value r2.2 r2.1
  ∧ value r2.2 r1.1 = value r1.2 r1.1
  ∧ obj_accounts r1.1 ≠ obj_accounts r2.1.
Proof.
  intros r1 r2.
  assert (Hne : obj_accounts r1.1 ≠ obj_accounts r2.1).
  { intros Heq. apply (generate_fresh r1.2). fold r2. rewrite <- Heq.
    unfold r1. rewrite generate_eq. cbn [fst snd obj_accounts].
    apply elem_of_dom. by rewrite lookup_insert_eq. }
  assert (H1 : value r2.2 r1.1 = value r1.2 r1.1).
  { unfold value, deref. f_equal. f_equal.
    all: unfold r2 at 1; rewrite (generate_eq r1.2); cbn [snd];
      rewrite lookup_insert_ne; [done|];
      intros Heq; apply Hne; unfold r2; by rewrite generate_eq. }
  split; [|done]. rewrite H1. unfold r2, r1. by rewrite !generate_value.
Qed.

(** When [open] succeeds the process does to the files and the console
    what [Script.main] does. *)
Lemma run_done (p : process) :
  output_path ∉ unwritable p →
  run json_dump p
  = Done {| objects := (generate (objects p)).2;
            io := main json_dump (io p);
            unwritable := unwritable p |}.
Proof.
  intros Hw. unfold run.
  pose proof (generate_value (objects p)) as Hv.
  destruct (generate (objects p)) as [coa h]. cbn [fst snd] in *.
  rewrite decide_False by done. by rewrite Hv.
Qed.


(** C10: the generator reads nothing of the interpreter it runs in: from
    any two processes the dictionaries it returns hold the same document,
    and a second call in one interpreter returns an equal document in a
    list object of its own.  When the output file can be opened in both,
    both runs end normally, the file holds the same text, the
    serialization of that document, the same lines are printed, and
    running again in the state a run leaves keeps the files as they are. *)
Theorem runs_agree (p1 p2 : process) :
  output_path ∉ unwritable p1 → output_path ∉ unwritable p2 →
  let r1 := generate (objects p1) in
  let r2 := generate (objects p2) in
  let again := generate r1.2 in
  value r1.2 r1.1 = value r2.2 r2.1
  ∧ value again.2 again.1 = value again.2 r1.1
  ∧ obj_accounts again.1 ≠ obj_accounts r1.1
  ∧ ∃ q1 q2,
      run json_dump p1 = Done q1
      ∧ run json_dump p2 = Done q2
      ∧ files (io q1) !! output_path = Some (json_dump (value r1.2 r1.1))
      ∧ files (io q1) !! output_path = files (io q2) !! output_path
      ∧ drop (length (stdout (io p1))) (stdout (io q1))
        = drop (length (stdout (io p2))) (stdout (io q2))
      ∧ ∃ q1', run json_dump q1 = Done q1'
               ∧ files (io q1') = files (io q1).
Proof.
  intros Hw1 Hw2 r1 r2 again.
  destruct (generate_twice (objects p1)) as (Heq & _ & Hne).
  split; [unfold r1, r2; by rewrite !generate_value|].
  split; [done|]. split; [done|].
  eexists _, _. split; [by apply run_done|]. split; [by apply run_done|].
  cbn [io]. rewrite !main_effect. cbn [files stdout].
  rewrite !lookup_insert_eq, !drop_app_length.
  split; [unfold r1; by rewrite generate_value|]. split; [done|]. split; [done|].
  eexists. split; [by apply run_done|].
  cbn [io]. rewrite main_effect. cbn [files]. by rewrite insert_insert_eq.
Qed.

End process_facts.

Lemma runs_agree_witness :
  let dump := λ d : Coa.document,
    Py.str_of_nat (Coa.account_count (Coa.chart_of_accounts d)) in
  let p1 := {| Process.objects := ∅;
               Process.io := {| Script.files := ∅; Script.stdout := [] |};
               Process.unwritable := ∅ |} in
  let p2 := {| Process.objects := {[ 1%positive := [Coa.record "9" "x" "ASSET" None "USD"] ]};
               Process.io := {| Script.files := {[ Script.output_path := "stale" ]};
                                Script.stdout := ["earlier"] |};
               Process.unwritable := {[ "locked.json" ]} |} in
  (Script.output_path ∉ Process.unwritable p1)
  ∧ (Script.output_path ∉ Process.unwritable p2)
  ∧ Process.value (Process.generate (Process.objects p1)).2
                  (Process.generate (Process.objects p1)).1
    = Process.value (Process.generate (Process.objects p2)).2
                    (Process.generate (Process.objects p2)).1.
Proof.
  intros dump p1 p2.
  assert (H1 : Script.output_path ∉ Process.unwritable p1) by compute_decision.
  assert (H2 : Script.output_path ∉ Process.unwritable p2) by compute_decision.
  split; [exact H1|]. split; [exact H2|].
  exact (proj1 (runs_agree dump p1 p2 H1 H2)).
Defined.

(** ** A run that cannot open its file *)

Section process_more.
Import Coa Script Process.

Variable json_dump : document → string.


End process_more.


(** * Further properties *)

(** ** Strings: prefixes, suffixes and the last character *)

Section more_py_facts.
Import Py.

Lemma append_nil_l (t : string) : "" +:+ t = t.
Proof. reflexivity. Qed.

Lemma append_cons (a : Ascii.ascii) (s t : string) :
  String a s +:+ t = String a (s +:+ t).
Proof. reflexivity. Qed.

Lemma length_append (s t : string) :
  String.length (s +:+ t) = String.length s + String.length t.
Proof.
  induction s as [|a s IH]; [done|].
  rewrite append_cons. cbn. by rewrite IH.
Qed.

Lemma append_assoc (s t u : string) : (s +:+ t) +:+ u = s +:+ (t +:+ u).
Proof.
  induction s as [|a s IH]; [done|]. by rewrite !append_cons, IH.
Qed.

Lemma substring_full (s : string) : String.substring 0 (String.length s) s = s.
Proof. induction s as [|a s IH]; cbn; [done | by rewrite IH]. Qed.

Lemma substring_app_l (s t : string) :
  String.substring 0 (String.length s) (s +:+ t) = s.
Proof.
  induction s as [|a s IH]; [by destruct t|].
  rewrite append_cons. cbn. by rewrite IH.
Qed.

Lemma substring_app_r (s t : string) :
  String.substring (String.length s) (String.length t) (s +:+ t) = t.
Proof.
  induction s as [|a s IH]; [apply substring_full|].
  rewrite append_cons. cbn. apply IH.
Qed.

Lemma substring_split (n : nat) (s : string) :
  String.substring 0 n s +:+ String.substring n (String.length s - n) s = s.
Proof.
  revert n. induction s as [|a s IH]; intros [|n]; cbn; try done.
  - by rewrite append_nil_l, substring_full.
  - by rewrite append_cons, IH.
Qed.

(** A string ends with what was appended to it. *)
Lemma endswith_app (s t : string) : endswith (s +:+ t) t = true.
Proof.
  unfold endswith. rewrite length_append.
  replace (String.length s + String.length t - String.length t)
    with (String.length s) by lia.
  rewrite substring_app_r, String.eqb_refl, andb_true_r.
  apply Nat.leb_le. lia.
Qed.

(** And a string that ends with [t] is some prefix followed by [t]. *)
Lemma endswith_inv (s t : string) :
  endswith s t = true → ∃ pre, s = pre +:+ t.
Proof.
  unfold endswith. intros H. apply andb_true_iff in H as [Hlen Heq].
  apply Nat.leb_le in Hlen. apply String.eqb_eq in Heq.
  remember (String.length s - String.length t) as n eqn:Hn.
  assert (String.length t = String.length s - n) as Hm by lia.
  rewrite Hm in Heq. exists (String.substring 0 n s).
  rewrite <- Heq. symmetry. apply substring_split.
Qed.

Lemma snoc_inj (s t : string) (a b : Ascii.ascii) :
  s +:+ String a "" = t +:+ String b "" → s = t ∧ a = b.
Proof.
  revert t. induction s as [|c s IH]; intros [|d t];
    rewrite ?append_cons, ?append_nil_l; intros H.
  - by injection H as ->.
  - injection H as _ H. by destruct t.
  - injection H as _ H. by destruct s.
  - injection H as -> H. apply IH in H as [-> ->]. done.
Qed.

Lemma but_last_snoc (s : string) (a : Ascii.ascii) :
  but_last (s +:+ String a "") = s.
Proof.
  unfold but_last. rewrite length_append. cbn.
  replace (String.length s + 1 - 1) with (String.length s) by lia.
  apply substring_app_l.
Qed.

Lemma endswith_snoc_two (s : string) (a b c : Ascii.ascii) :
  endswith (s +:+ String a "") (String b (String c "")) = true → a = c.
Proof.
  intros [pre H]%endswith_inv.
  change (String b (String c "")) with (String b "" +:+ String c "") in H.
  rewrite <- append_assoc in H. by apply snoc_inj in H as [_ ->].
Qed.

(** Ending in two given characters implies ending in the second. *)
Lemma endswith_two_last (s : string) (b c : Ascii.ascii) :
  endswith s (String b (String c "")) = true → endswith s (String c "") = true.
Proof.
  intros [pre ->]%endswith_inv.
  change (String b (String c "")) with (String b "" +:+ String c "").
  rewrite <- append_assoc. apply endswith_app.
Qed.

End more_py_facts.

(** ** The derived parent, for any code *)

Section derived_parent_facts.
Import Stdlib.Strings.Ascii.
Import Coa.

(** X1: the parent stored by the other-revenue loop is the record's own
    code for the code "4000" and for no other code. *)
Theorem own_parent_only_root (c : string) :
  other_revenue_parent c = c ↔ c = "4000".
Proof.
  split; [|by intros ->].
  unfold other_revenue_parent. case_bool_decide; [done | by intros <-].
Qed.

Lemma other_revenue_parent_suffix (c : string) :
  Py.endswith (other_revenue_parent c) "0" = true.
Proof.
  unfold other_revenue_parent, derived_parent.
  case_bool_decide; [|done].
  destruct (Py.endswith c "00"); [done | apply endswith_app].
Qed.

(** X2: whatever the code, the stored parent ends in "0", and the parent
    the loop would store for that parent is "4000": the derivation never
    builds a chain longer than two. *)
Theorem derived_parent_twice (c : string) :
  Py.endswith (other_revenue_parent c) "0" = true
  ∧ other_revenue_parent (other_revenue_parent c) = "4000".
Proof.
  split; [apply other_revenue_parent_suffix|].
  apply other_revenue_parent_ends_0, other_revenue_parent_suffix.
Qed.

(** X3: for a code whose last character is not "0", the stored parent is
    the code with "0" in place of that character. *)
Theorem derived_parent_replaces_last (s : string) (a : ascii) :
  a ≠ "0"%char →
  other_revenue_parent (s +:+ String a "") = s +:+ "0".
Proof.
  intros Ha. unfold other_revenue_parent, derived_parent.
  destruct (Py.endswith (s +:+ String a "") "00") eqn:H00.
  { by apply endswith_snoc_two in H00. }
  rewrite but_last_snoc. case_bool_decide as Hne; [done|].
  apply snoc_inj in Hne as [_ Hne]. by destruct Ha.
Qed.

Lemma derived_parent_replaces_last_witness :
  "1"%char ≠ "0"%char ∧ other_revenue_parent "4411" = "4410".
Proof.
  split; [done|]. apply (derived_parent_replaces_last "441" "1"%char). done.
Defined.

(** X4: the test on "00" and the guard against the own code act together
    as one test on the last character: a code ending in "0" gets "4000",
    any other code, the empty one included, gets [code[:-1] + "0"]. *)
Theorem derived_parent_one_test (c : string) :
  other_revenue_parent c
  = if Py.endswith c "0" then "4000" else Py.but_last c +:+ "0".
Proof.
  destruct (Py.endswith c "0") eqn:H0.
  { by apply other_revenue_parent_ends_0. }
  unfold other_revenue_parent, derived_parent.
  destruct (Py.endswith c "00") eqn:H00.
  { apply endswith_two_last in H00. congruence. }
  case_bool_decide as Hne; [done|].
  rewrite <- Hne, endswith_app in H0. done.
Qed.

Example derived_parent_empty : other_revenue_parent "" = "0".
Proof. reflexivity. Qed.

End derived_parent_facts.

(** ** The tally, for any list of accounts *)

Section tally_more.
Import Coa Report.

Lemma occurrences_perm (t : string) (accs1 accs2 : list account) :
  accs1 ≡ₚ accs2 → occurrences t accs1 = occurrences t accs2.
Proof. intros Hp. unfold occurrences. by rewrite Hp. Qed.

Lemma occurrences_zero (t : string) (accs : list account) :
  occurrences t accs = 0 ↔ Forall (λ a, type a ≠ t) accs.
Proof.
  unfold occurrences. rewrite length_zero_iff_nil, Forall_forall. split.
  - intros Hnil a Ha Ht. by apply (filter_nil_not_elem_of _ _ a Hnil Ht).
  - intros Hall.
    destruct (filter (λ a, type a = t) accs) as [|a l] eqn:Hf; [done|].
    assert (a ∈ filter (λ a, type a = t) accs) as Hin by (rewrite Hf; left).
    apply list_elem_of_filter in Hin as [Ht Ha]. by destruct (Hall a Ha).
Qed.

(** X5: a key of [by_type] holds the number of records of that type, which
    is never zero; a type that no record has is no key. *)
Theorem by_type_count (accs : list account) (t : string) :
  match by_type accs !! t with
  | Some n => n = occurrences t accs ∧ 0 < n
  | None => Forall (λ a, type a ≠ t) accs
  end.
Proof.
  rewrite by_type_lookup. case_decide as H0.
  - by apply occurrences_zero.
  - split; [done | lia].
Qed.

(** X6: the tally does not depend on the order of the records. *)
Theorem by_type_perm (accs1 accs2 : list account) :
  accs1 ≡ₚ accs2 → by_type accs1 = by_type accs2.
Proof.
  intros Hp. apply map_eq. intros t.
  by rewrite !by_type_lookup, (occurrences_perm t _ _ Hp).
Qed.

Lemma by_type_perm_witness :
  let a := record "1210" "Land" "ASSET" (Some "1200") "USD" in
  let b := record "3700" "Dividends" "EQUITY" (Some "3000") "USD" in
  [a; b; a] ≡ₚ [b; a; a] ∧ by_type [a; b; a] = by_type [b; a; a].
Proof.
  intros a b.
  assert (Hp : [a; b; a] ≡ₚ [b; a; a]) by compute_decision.
  split; [exact Hp | apply (by_type_perm _ _ Hp)].
Defined.

(** X7: the tally of two lists put end to end is the two tallies merged,
    the counts of a common type added. *)
Theorem by_type_app (accs1 accs2 : list account) :
  by_type (accs1 ++ accs2)
  = union_with (λ n m, Some (n + m)) (by_type accs1) (by_type accs2).
Proof.
  apply map_eq. intros t. rewrite lookup_union_with, !by_type_lookup.
  unfold occurrences. rewrite filter_app, length_app.
  repeat case_decide; cbn; try lia; f_equal; lia.
Qed.

(** X8: for any list of accounts, the breakdown has a pair (t, n) exactly
    when n records have type t and n is not zero; no type comes twice, and
    the type names ascend. *)
Theorem breakdown_spec (accs : list account) :
  (∀ t n, (t, n) ∈ breakdown accs ↔ 0 < n ∧ n = occurrences t accs)
  ∧ NoDup (breakdown accs).*1
  ∧ StronglySorted type_before (breakdown accs).
Proof.
  split; [|split].
  - intros t n. rewrite breakdown_perm. unfold items.
    rewrite elem_of_map_to_list, by_type_lookup.
    case_decide; split; try done; try lia.
    + intros [= <-]. split; [lia | done].
    + by intros [_ ->].
  - rewrite breakdown_perm. apply NoDup_fst_map_to_list.
  - apply breakdown_sorted.
Qed.

Lemma breakdown_elem_of (accs : list account) (t : string) (n : nat) :
  (t, n) ∈ breakdown accs ↔ 0 < n ∧ n = occurrences t accs.
Proof.
  rewrite breakdown_perm. unfold items.
  rewrite elem_of_map_to_list, by_type_lookup.
  case_decide; split; try done; try lia.
  - intros [= <-]. split; [lia | done].
  - by intros [_ ->].
Qed.

(** X9: for any document, the report is the three opening strings (the
    line with [account_count], the line naming the file, and the heading,
    which starts with a newline character) followed by one string
    "  TYPE: COUNT accounts" for each type that occurs among the accounts,
    COUNT being the number of records of that type, the types strictly
    ascending. *)
Theorem report_lines (coa : document) :
  ∃ pairs : list (string * nat),
    Script.report coa
    = ([ "Generated comprehensive CoA with "
           +:+ Py.str_of_nat (account_count (chart_of_accounts coa))
           +:+ " accounts";
         "File saved to: comprehensive-coa.json";
         String (Ascii.ascii_of_nat 10) "Account breakdown by type:" ]
       ++ ((λ x, "  " +:+ x.1 +:+ ": " +:+ Py.str_of_nat x.2 +:+ " accounts")
             <$> pairs))%list
    ∧ StronglySorted type_before pairs
    ∧ (∀ t n, (t, n) ∈ pairs
              ↔ 0 < n ∧ n = occurrences t (coa_accounts (chart_of_accounts coa)))
    ∧ length (Script.report coa)
      = 3 + size (by_type (coa_accounts (chart_of_accounts coa))).
Proof.
  exists (breakdown (coa_accounts (chart_of_accounts coa))).
  split; [reflexivity|]. split; [apply breakdown_sorted|].
  split; [intros t n; apply breakdown_elem_of|].
  unfold Script.report. rewrite length_app, length_fmap, breakdown_perm.
  unfold items. by rewrite length_map_to_list.
Qed.

End tally_more.

(** ** What a run leaves alone *)

Section script_more.
Import Coa Script.

Variable json_dump : document → string.

(** X10: a run changes no file but the one it writes, and keeps what was
    on the console before it. *)
Theorem main_frame (w : world) (path : string) :
  path ≠ output_path →
  files (main json_dump w) !! path = files w !! path
  ∧ take (length (stdout w)) (stdout (main json_dump w)) = stdout w.
Proof.
  intros Hp. rewrite main_effect. cbn.
  by rewrite lookup_insert_ne, take_app_length.
Qed.

End script_more.

Lemma main_frame_witness :
  let dump := λ _ : Coa.document, "{}" in
  let w := {| Script.files := {[ "ledger.csv" := "1000,0" ]};
              Script.stdout := ["ready"] |} in
  "ledger.csv" ≠ Script.output_path
  ∧ Script.files (Script.main dump w) !! "ledger.csv" = Some "1000,0"
  ∧ take 1 (Script.stdout (Script.main dump w)) = ["ready"].
Proof.
  intros dump w. split; [done|].
  apply (main_frame dump w "ledger.csv"). done.
Defined.

(** ** The shape of the catalogue *)

Section forest_facts.
Import Coa Forest.

Lemma ltb_asymm (s t : string) : String.ltb s t = true → String.ltb t s = false.
Proof.
  unfold String.ltb. rewrite (String.compare_antisym s t).
  by destruct (String.compare t s).
Qed.

Lemma StronglySorted_lookup_lt {A} (R : relation A) (l : list A) (i j : nat) (x y : A) :
  StronglySorted R l → l !! i = Some x → l !! j = Some y → i < j → R x y.
Proof.
  intros Hs. revert i j. induction Hs as [|z l Hs IH Hz]; intros i j Hi Hj Hlt.
  - by rewrite lookup_nil in Hi.
  - destruct i as [|i], j as [|j]; try lia; cbn in *.
    + injection Hi as ->. eapply Forall_forall; [exact Hz|].
      by eapply list_elem_of_lookup_2.
    + eapply IH; eauto with lia.
Qed.

Lemma accounts_sorted : StronglySorted code_before accounts.
Proof. compute_decision. Qed.

Lemma parent_code_before :
  Forall (λ a, Forall (λ b, parent a = Some (code b) →
                            type b = type a ∧ code_before b a) accounts)
         accounts.
Proof. compute_decision. Qed.

(** X11: the generated list is in strictly ascending order of code. *)
Theorem accounts_ascending (i j : nat) (a b : account) :
  accounts !! i = Some a → accounts !! j = Some b → i < j →
  code_before a b.
Proof. apply StronglySorted_lookup_lt, accounts_sorted. Qed.

Lemma accounts_ascending_witness :
  let a := record "1370" "Brand Names" "ASSET" (Some "1300") "USD" in
  let b := record "2000" "Liabilities" "LIABILITY" None "USD" in
  (accounts !! 70 = Some a ∧ accounts !! 71 = Some b ∧ 70 < 71)
  ∧ code_before a b.
Proof.
  intros a b. split.
  - split; [reflexivity | split; [reflexivity | lia]].
  - apply (accounts_ascending 70 71); [reflexivity | reflexivity | lia].
Defined.

(** X12: a record and the record its parent names have the same type, and
    the parent's code is the smaller one. *)
Theorem parent_same_type (a b : account) :
  a ∈ accounts → b ∈ accounts → parent a = Some (code b) →
  type b = type a ∧ code_before b a.
Proof.
  intros Ha Hb.
  pose proof (proj1 (Forall_forall _ _) parent_code_before a Ha) as H.
  exact (proj1 (Forall_forall _ _) H b Hb).
Qed.

Lemma parent_same_type_witness :
  let a := record "2142" "Customer Deposits" "LIABILITY" (Some "2140") "USD" in
  let b := record "2140" "Deferred Revenue" "LIABILITY" (Some "2100") "USD" in
  (a ∈ accounts ∧ b ∈ accounts ∧ parent a = Some (code b))
  ∧ type b = type a ∧ code_before b a.
Proof.
  intros a b.
  assert (Ha : a ∈ accounts) by compute_decision.
  assert (Hb : b ∈ accounts) by compute_decision.
  split; [by repeat split|].
  apply (parent_same_type a b Ha Hb). reflexivity.
Defined.

(** X13: in the generated list a parent stands before each of its
    children. *)
Theorem parent_comes_first (i j : nat) (a b : account) :
  accounts !! i = Some a → accounts !! j = Some b →
  parent a = Some (code b) → j < i.
Proof.
  intros Hi Hj Hp.
  assert (code_before b a) as Hba.
  { eapply (proj1 (Forall_forall _ _)
              (proj1 (Forall_forall _ _) parent_code_before a _) b); [|done].
    Unshelve. all: by eapply list_elem_of_lookup_2. }
  destruct (decide (j < i)) as [|Hge]; [done|]. exfalso.
  pose proof (ltb_asymm _ _ Hba) as Hnab. unfold code_before in Hba.
  destruct (decide (i = j)) as [->|Hne].
  - rewrite Hi in Hj. injection Hj as ->. congruence.
  - assert (code_before a b) as Hab
      by (apply (StronglySorted_lookup_lt _ _ i j a b accounts_sorted Hi Hj); lia).
    unfold code_before in Hab. congruence.
Qed.

Lemma parent_comes_first_witness :
  let a := record "5680" "Miscellaneous Expense" "EXPENSE" (Some "5600") "USD" in
  let b := record "5600" "Other Expenses" "EXPENSE" (Some "5000") "USD" in
  (accounts !! 232 = Some a ∧ accounts !! 224 = Some b
   ∧ parent a = Some (code b))
  ∧ 224 < 232.
Proof.
  intros a b. split; [by repeat split|].
  apply (parent_comes_first 232 224 a b); reflexivity.
Defined.

Lemma accounts_rooted :
  Forall (λ a, ∃ r, root_of 3 accounts a = Some r ∧ r ∈ accounts
                    ∧ parent r = None ∧ type r = type a) accounts.
Proof.
  assert (Forall (λ a, match root_of 3 accounts a with
                       | Some r => bool_decide (r ∈ accounts ∧ parent r = None
                                                ∧ type r = type a)
                       | None => false
                       end = true) accounts) as H by compute_decision.
  eapply Forall_impl; [exact H|]. intros a Ha. lazy beta in Ha.
  destruct (root_of 3 accounts a) as [r|]; [|done].
  apply bool_decide_eq_true in Ha as (? & ? & ?). by exists r.
Qed.

(** X14: from every record, following the parent references at most three
    times ends at a record of the list without parent, a root, and that
    root has the record's type: the references form a forest, not a cycle. *)
Theorem every_account_rooted (a : account) :
  a ∈ accounts →
  ∃ r, root_of 3 accounts a = Some r ∧ r ∈ accounts
       ∧ parent r = None ∧ type r = type a.
Proof. intros Ha. exact (proj1 (Forall_forall _ _) accounts_rooted a Ha). Qed.

Lemma every_account_rooted_witness :
  let a := record "1117" "AR - International" "ASSET" (Some "1110") "USD" in
  a ∈ accounts
  ∧ ∃ r, root_of 3 accounts a = Some r ∧ r ∈ accounts
         ∧ parent r = None ∧ type r = type a.
Proof.
  intros a. assert (Ha : a ∈ accounts) by compute_decision.
  split; [exact Ha | apply (every_account_rooted a Ha)].
Defined.

(** Three steps are needed: two do not reach the root from "1117". *)
Example three_steps_needed :
  root_of 2 accounts (record "1117" "AR - International" "ASSET" (Some "1110") "USD")
  = None.
Proof. reflexivity. Qed.

(** X15: every code is four decimal digits, every name is non-empty, and
    no two records share a name. *)
Theorem code_and_name_format :
  Forall (λ a, Forall is_digit (String.list_ascii_of_string (code a))
               ∧ String.length (code a) = 4
               ∧ name a ≠ "") accounts
  ∧ NoDup (name <$> accounts).
Proof. split; compute_decision. Qed.

(** X16: the records whose currency is not the document's base currency
    "USD" are exactly the three foreign-currency cash accounts, "1106" in
    EUR, "1107" in GBP and "1108" in JPY; the records with the key
    "regulation" are exactly the record "1000", where it is the empty
    string. *)
Theorem currency_and_regulation :
  base_currency (chart_of_accounts generate_comprehensive_coa) = "USD"
  ∧ (λ a, (code a, currency a))
      <$> filter (λ a, currency a
                       ≠ base_currency (chart_of_accounts generate_comprehensive_coa))
                 accounts
    = [ ("1106", "EUR"); ("1107", "GBP"); ("1108", "JPY") ]
  ∧ Forall (λ a, code a ∉ ["1106"; "1107"; "1108"] → currency a = "USD") accounts
  ∧ (λ a, (code a, regulation a)) <$> filter (λ a, is_Some (regulation a)) accounts
    = [ ("1000", Some "") ]
  ∧ Forall (λ a, code a ≠ "1000" → regulation a = None) accounts.
Proof.
  split; [reflexivity|]. split; [reflexivity|]. split; [compute_decision|].
  split; [reflexivity | compute_decision].
Qed.

(** *** Looking any code up *)

Lemma lookup_code_missing (c : string) (l : list account) :
  c ∉ code <$> l → lookup_code c l = [].
Proof.
  intros Hc. unfold lookup_code.
  destruct (filter (λ a, code a = c) l) as [|a k] eqn:Hf; [done|].
  assert (a ∈ filter (λ a, code a = c) l) as Hin by (rewrite Hf; left).
  apply list_elem_of_filter in Hin as [<- Ha].
  destruct Hc. by apply list_elem_of_fmap_2.
Qed.

Lemma lookup_code_found (a : account) (l : list account) :
  NoDup (code <$> l) → a ∈ l → lookup_code (code a) l = [a].
Proof.
  unfold lookup_code. induction l as [|b l IH]; intros Hnd Ha.
  - by apply elem_of_nil in Ha.
  - rewrite fmap_cons in Hnd. apply NoDup_cons in Hnd as [Hb Hnd].
    rewrite filter_cons. apply elem_of_cons in Ha as [->|Ha].
    + rewrite decide_True by done. f_equal. by apply lookup_code_missing.
    + rewrite decide_False; [by apply IH|].
      intros Heq. apply Hb. rewrite Heq. by apply list_elem_of_fmap_2.
Qed.

(** X17: looking up the code of a generated record finds that record and
    no other, and looking up a code that no record has finds nothing. *)
Theorem lookup_code_accounts :
  (∀ a, a ∈ accounts → lookup_code (code a) accounts = [a])
  ∧ (∀ c, c ∉ code <$> accounts → lookup_code c accounts = []).
Proof.
  split.
  - intros a. apply lookup_code_found, codes_NoDup.
  - intros c. apply lookup_code_missing.
Qed.

End forest_facts.
